(** * Bookmarks cog of the tux Discord bot: a shallow embedding

    Source: [src/tux/cogs/services/bookmarks.py].

    The cog is one event handler, [on_raw_reaction_add], with three helpers.
    It is embedded as a program in a small state-and-exception monad:
    - the state holds the heap of [discord.Message] objects (the handler
      mutates [message.content] in place) and the trace of the steps taken so
      far, in program order;
    - a computation completes normally, by a Python [return], or by raising;
    - the host library (discord.py) is a record of outcomes, [World], one per
      call the cog makes into it. *)

From Stdlib Require Import ZArith NArith Lia String Ascii DecimalString.
From stdpp Require Import base option list gmap.

Local Open Scope Z_scope.

(** ** Python strings *)

(** A Python [str] is a sequence of Unicode code points. *)
Definition char : Type := N.
Definition str : Type := list char.

(** An ASCII literal of the source as a [str]. *)
Definition lit (s : string) : str :=
  List.map N_of_ascii (list_ascii_of_string s).

(** [len(s)]. *)
Definition len (s : str) : Z := Z.of_nat (length s).

(** [s[:stop]]: a negative stop counts from the end, and the stop is clamped
    to [0 .. len(s)]. *)
Definition slice_to (s : str) (stop : Z) : str :=
  let stop' := if stop <? 0 then Z.max 0 (stop + len s) else Z.min stop (len s) in
  take (Z.to_nat stop') s.

(** [s.startswith(prefix)]. *)
Fixpoint startswith (s prefix : str) {struct prefix} : bool :=
  match prefix, s with
  | [], _ => true
  | _ :: _, [] => false
  | p :: prefix', c :: s' => (p =? c)%N && startswith s' prefix'
  end.

(** [needle in hay] on strings: [needle] occurs in [hay] at some offset. *)
Fixpoint str_contains (hay needle : str) : bool :=
  startswith hay needle ||
  match hay with
  | [] => false
  | _ :: hay' => str_contains hay' needle
  end.

(** [sep.join(parts)]. *)
Fixpoint join (sep : str) (parts : list str) : str :=
  match parts with
  | [] => []
  | [p] => p
  | p :: rest => p ++ sep ++ join sep rest
  end.

(** [str(n)] for a non-negative integer: its decimal digits. *)
Definition str_of_N (n : N) : str :=
  lit (NilEmpty.string_of_uint (N.to_uint n)).

(** [needle] is a substring of [hay]. *)
Definition Substring (needle hay : str) : Prop :=
  exists pre post : str, hay = pre ++ needle ++ post.

(** ** Data of the host library that the cog reads *)

Record PartialEmoji : Type := mkPartialEmoji {
  emoji_name : str;
  emoji_id : option N
}.

Record RawReactionActionEvent : Type := mkPayload {
  payload_emoji : PartialEmoji;
  payload_user_id : N;
  payload_channel_id : N;
  payload_message_id : N
}.

(** Users and channels are never mutated by the cog: an object is its
    identity (what Python's [is] compares) with the attributes read. *)
Record User : Type := mkUser {
  user_oid : N;
  user_name : str;
  user_mention : str
}.

Record Channel : Type := mkChannel {
  channel_oid : N
}.

Record Attachment : Type := mkAttachment {
  attachment_url : str
}.

(** [a is b] on users. *)
Definition user_is (a b : User) : bool := (user_oid a =? user_oid b)%N.

(** A [discord.Message] object as it lies in the heap. *)
Record Message : Type := mkMessage {
  content : str;
  author : User;
  channel : Channel;
  jump_url : str;
  attachments : list Attachment
}.

Definition set_content (m : Message) (c : str) : Message :=
  mkMessage c (author m) (channel m) (jump_url m) (attachments m).

(** A reference to a message object. *)
Definition ref : Type := N.

Inductive EmbedType : Type := INFO | ERROR | SUCCESS.

Record EmbedField : Type := mkField {
  field_name : str;
  field_value : str;
  field_inline : bool
}.

Record Embed : Type := mkEmbed {
  embed_type : EmbedType;
  embed_title : str;
  embed_description : str;
  embed_fields : list EmbedField
}.

(** [embed.add_field(name=..., value=..., inline=...)]: fields are appended. *)
Definition add_field (e : Embed) (name value : str) (inline : bool) : Embed :=
  mkEmbed (embed_type e) (embed_title e) (embed_description e)
          (embed_fields e ++ [mkField name value inline]).

(** Modelled from the spec: [EmbedCreator.create_embed] ([tux.ui.embeds] is
    not among the sources).  The spec calls its result "a simple display
    object"; it is taken to hold the type, the title and the description it
    is given, with no field yet. *)
Definition create_embed (ty : EmbedType) (title description : str) : Embed :=
  mkEmbed ty title description [].

(** The constants of [tux.utils.constants.CONST] the cog reads; their values
    are not among the sources, so they are parameters throughout. *)
Record Constants : Type := mkConstants {
  ADD_BOOKMARK : str;
  REMOVE_BOOKMARK : str;
  EMBED_MAX_DESC_LENGTH : Z
}.

(** ** Exceptions *)

(** The exception classes of discord.py that the calls of the cog raise,
    with their bases. *)
Inductive ExnClass : Type :=
| Exception
| DiscordException
| ClientException
| InvalidData
| HTTPException
| Forbidden
| NotFound
| DiscordServerError.

Definition ExnClass_eqb (a b : ExnClass) : bool :=
  match a, b with
  | Exception, Exception
  | DiscordException, DiscordException
  | ClientException, ClientException
  | InvalidData, InvalidData
  | HTTPException, HTTPException
  | Forbidden, Forbidden
  | NotFound, NotFound
  | DiscordServerError, DiscordServerError => true
  | _, _ => false
  end.

(** The method resolution order of a class: itself, then its bases. *)
Definition mro (c : ExnClass) : list ExnClass :=
  match c with
  | Exception => [Exception]
  | DiscordException => [DiscordException; Exception]
  | ClientException => [ClientException; DiscordException; Exception]
  | InvalidData => [InvalidData; ClientException; DiscordException; Exception]
  | HTTPException => [HTTPException; DiscordException; Exception]
  | Forbidden => [Forbidden; HTTPException; DiscordException; Exception]
  | NotFound => [NotFound; HTTPException; DiscordException; Exception]
  | DiscordServerError =>
      [DiscordServerError; HTTPException; DiscordException; Exception]
  end.

Definition issubclass (c base : ExnClass) : bool :=
  existsb (ExnClass_eqb base) (mro c).

(** A raised exception: its class and its [str()]. *)
Record Exn : Type := mkExn {
  exn_class : ExnClass;
  exn_str : str
}.

Definition isinstance (e : Exn) (c : ExnClass) : bool :=
  issubclass (exn_class e) c.

(** [except (c1, c2, ...)]: the clause catches [e]. *)
Definition catches (classes : list ExnClass) (e : Exn) : bool :=
  existsb (isinstance e) classes.

(** ** The host library as seen from the cog *)

(** What a call into the host library does: it returns or it raises. *)
Inductive Outcome (A : Type) : Type :=
| Returns (a : A)
| Raises (e : Exn).
Arguments Returns {A} a.
Arguments Raises {A} e.

(** The bot ([self.bot]) with the outcome of every call the cog makes into
    discord.py, as a function of the call's arguments.  [get_user] and
    [get_channel] read the cache and never raise; the others are network
    calls. *)
Record World : Type := mkWorld {
  bot_user : User;
  get_user : N -> option User;
  get_channel : N -> option Channel;
  fetch_user : N -> Outcome User;
  fetch_channel : N -> Outcome Channel;
  fetch_message : Channel -> N -> Outcome Message;
  user_send : User -> Embed -> Outcome Message;
  add_reaction : Message -> str -> Outcome unit;
  channel_send : Channel -> str -> Outcome Message;
  message_delete : Message -> option Z -> Outcome unit
}.

(** ** The steps a run of the handler takes *)

Inductive Event : Type :=
| Ev_is_valid_emoji (name valid_list : str) (result : bool)
| Ev_get_user (user_id : N)
| Ev_fetch_user (user_id : N)
| Ev_get_channel (channel_id : N)
| Ev_fetch_channel (channel_id : N)
| Ev_fetch_message (ch : Channel) (message_id : N)
| Ev_create_embed (embed : Embed)
| Ev_user_send (user : User) (embed : Embed)
| Ev_add_reaction (message : ref) (emoji : str)
| Ev_channel_send (ch : Channel) (text : str)
| Ev_message_delete (message : ref) (delay : option Z)
| Ev_log_error (text : str).

(** ** The monad *)

Record State : Type := mkState {
  heap : gmap ref Message;
  trace : list Event
}.

(** How a piece of Python code completes: it falls through with a value, it
    executes [return] (the [None] of a procedure), or it raises. *)
Inductive Completion (A : Type) : Type :=
| Normal (a : A)
| Returned
| Raised (e : Exn).
Arguments Normal {A} a.
Arguments Returned {A}.
Arguments Raised {A} e.

Definition M (A : Type) : Type := State -> Completion A * State.

Definition ret {A} (a : A) : M A := fun s => (Normal a, s).

Definition bind {A B} (m : M A) (k : A -> M B) : M B := fun s =>
  match m s with
  | (Normal a, s') => k a s'
  | (Returned, s') => (Returned, s')
  | (Raised e, s') => (Raised e, s')
  end.

Notation "x <- m ;; k" := (bind m (fun x => k))
  (at level 100, m at next level, right associativity).
Notation "m ;; k" := (bind m (fun _ => k))
  (at level 100, right associativity).

(** The [return] statement of a procedure. *)
Definition return_ {A} : M A := fun s => (Returned, s).

Definition raise {A} (e : Exn) : M A := fun s => (Raised e, s).

(** The boundary of a procedure ([-> None]): a [return] inside it ends it. *)
Definition def_ (body : M unit) : M unit := fun s =>
  match body s with
  | (Returned, s') => (Normal tt, s')
  | r => r
  end.

(** One step is recorded at the end of the trace. *)
Definition step (ev : Event) : M unit := fun s =>
  (Normal tt, mkState (heap s) (trace s ++ [ev])).

(** A call into the host library: the call is recorded, then it returns or
    raises as the world says. *)
Definition call {A} (ev : Event) (o : Outcome A) : M A :=
  step ev ;;
  match o with
  | Returns a => ret a
  | Raises e => raise e
  end.

(** [try: body except classes1: h1 except classes2: h2 ...]: the first clause
    that catches the exception handles it; with none, it propagates. *)
Fixpoint handle {A} (clauses : list (list ExnClass * (Exn -> M A)))
    (e : Exn) : M A :=
  match clauses with
  | [] => raise e
  | (classes, handler) :: rest =>
      if catches classes e then handler e else handle rest e
  end.

Definition try_except {A} (body : M A)
    (clauses : list (list ExnClass * (Exn -> M A))) : M A := fun s =>
  match body s with
  | (Raised e, s') => handle clauses e s'
  | r => r
  end.

(** *** Message objects *)

(** The host library hands out a new message object. *)
Definition alloc (m : Message) : M ref := fun s =>
  let r := fresh (dom (heap s)) in
  (Normal r, mkState (<[r := m]> (heap s)) (trace s)).

(** Reading the attributes of a message object.  Every reference the cog
    holds came from [alloc], so the error branch is never taken there. *)
Definition load (r : ref) : M Message := fun s =>
  match heap s !! r with
  | Some m => (Normal m, s)
  | None => (Raised (mkExn Exception (lit "dangling reference")), s)
  end.

(** [message.content = c]: the object is changed where it lies. *)
Definition store_content (r : ref) (c : str) : M unit :=
  m <- load r ;;
  fun s => (Normal tt, mkState (<[r := set_content m c]> (heap s)) (trace s)).

(** A call that returns a new message object. *)
Definition call_new (ev : Event) (o : Outcome Message) : M ref :=
  m <- call ev o ;; alloc m.

(** Running a computation from a heap, with an empty trace. *)
Definition run {A} (m : M A) (h : gmap ref Message) : Completion A * State :=
  m (mkState h []).

(** ** The cog *)

Section Bookmarks.

Variable CONST : Constants.
Variable bot : World.

(** [Bookmarks.__init__]: the three emoji strings of the cog. *)
Definition valid_add_emojis : str := ADD_BOOKMARK CONST.
Definition valid_remove_emojis : str := REMOVE_BOOKMARK CONST.
Definition valid_emojis : str := ADD_BOOKMARK CONST ++ REMOVE_BOOKMARK CONST.

Definition _is_valid_emoji (emoji : PartialEmoji) (valid_list : str) : bool :=
  if str_contains valid_list (emoji_name emoji) then true else false.

(** A call of [_is_valid_emoji] by the handler, recorded as a step. *)
Definition classify (emoji : PartialEmoji) (valid_list : str) : M bool :=
  let result := _is_valid_emoji emoji valid_list in
  step (Ev_is_valid_emoji (emoji_name emoji) valid_list result) ;;
  ret result.

(** [logger.error(text)]. *)
Definition logger_error (text : str) : M unit := step (Ev_log_error text).

(** The embed of [_create_bookmark_embed], from the attributes the message
    has once its content is settled. *)
Definition bookmark_embed (m : Message) : Embed :=
  let embed :=
    create_embed INFO (lit "Message Bookmarked") (lit "> " ++ content m) in
  let embed := add_field embed (lit "Author") (user_name (author m)) false in
  let embed :=
    add_field embed (lit "Jump to Message")
      (lit "[Click Here](" ++ jump_url m ++ lit ")") false in
  match attachments m with
  | [] => embed
  | _ :: _ =>
      let attachments_info :=
        join (lit (String (ascii_of_nat 10) EmptyString))
             (List.map attachment_url (attachments m)) in
      add_field embed (lit "Attachments") attachments_info false
  end.

Definition _create_bookmark_embed (message : ref) : M Embed :=
  m <- load message ;;
  (if len (content m) >? EMBED_MAX_DESC_LENGTH CONST
   then store_content message
          (slice_to (content m) (EMBED_MAX_DESC_LENGTH CONST - 3) ++ lit "...")
   else ret tt) ;;
  m <- load message ;;
  let embed := bookmark_embed m in
  step (Ev_create_embed embed) ;;
  ret embed.

Definition _delete_bookmark (message : ref) (user : User) : M unit :=
  def_ (
    m <- load message ;;
    (if negb (user_is (author m) (bot_user bot)) then return_ else ret tt) ;;
    call (Ev_message_delete message None) (message_delete bot m None)).

Definition dm_failed_text (user : User) : str :=
  user_mention user ++
  lit ", I couldn't send you a DM. Please make sure your DMs are open for bookmarks to work.".

Definition _send_bookmark (user : User) (message : ref) (embed : Embed)
    (emoji : PartialEmoji) : M unit :=
  def_ (
    try_except
      (dm_message <-
         call_new (Ev_user_send user embed) (user_send bot user embed) ;;
       dm <- load dm_message ;;
       call (Ev_add_reaction dm_message (REMOVE_BOOKMARK CONST))
            (add_reaction bot dm (REMOVE_BOOKMARK CONST)))
      [ ([Forbidden; HTTPException], fun dm_error =>
           logger_error (lit "Cannot send a DM to " ++ user_name user ++
                         lit ": " ++ exn_str dm_error) ;;
           m <- load message ;;
           notify_message <-
             call_new (Ev_channel_send (channel m) (dm_failed_text user))
                      (channel_send bot (channel m) (dm_failed_text user)) ;;
           notify <- load notify_message ;;
           call (Ev_message_delete notify_message (Some 30))
                (message_delete bot notify (Some 30))) ]).

Definition on_raw_reaction_add (payload : RawReactionActionEvent) : M unit :=
  let emoji := payload_emoji payload in
  let user_id := payload_user_id payload in
  let channel_id := payload_channel_id payload in
  let message_id := payload_message_id payload in
  def_ (
    valid <- classify emoji valid_emojis ;;
    (if negb valid then return_ else ret tt) ;;
    (* Get the user who reacted to the message *)
    cached <- call (Ev_get_user user_id) (Returns (get_user bot user_id)) ;;
    user <-
      match cached with
      | None =>
          _ <- try_except
                 (fetched <- call (Ev_fetch_user user_id)
                                  (fetch_user bot user_id) ;;
                  ret (Some fetched))
                 [ ([NotFound], fun _ =>
                      logger_error (lit "User not found for ID: " ++
                                    str_of_N user_id) ;;
                      ret None);
                   ([Forbidden; HTTPException], fun fetch_error =>
                      logger_error (lit "Failed to fetch user: " ++
                                    exn_str fetch_error) ;;
                      ret None) ] ;;
          return_
      | Some user => ret user
      end ;;
    (* Fetch the channel where the reaction was added *)
    cached <- call (Ev_get_channel channel_id)
                   (Returns (get_channel bot channel_id)) ;;
    ch <-
      match cached with
      | None =>
          _ <- try_except
                 (fetched <- call (Ev_fetch_channel channel_id)
                                  (fetch_channel bot channel_id) ;;
                  ret (Some fetched))
                 [ ([NotFound], fun _ =>
                      logger_error (lit "Channel not found for ID: " ++
                                    str_of_N channel_id) ;;
                      ret None);
                   ([Forbidden; HTTPException], fun fetch_error =>
                      logger_error (lit "Failed to fetch channel: " ++
                                    exn_str fetch_error) ;;
                      ret None) ] ;;
          return_
      | Some ch => ret ch
      end ;;
    (* Fetch the message that was reacted to *)
    message <-
      try_except
        (call_new (Ev_fetch_message ch message_id)
                  (fetch_message bot ch message_id))
        [ ([NotFound], fun _ =>
             logger_error (lit "Message not found for ID: " ++
                           str_of_N message_id) ;;
             return_);
          ([Forbidden; HTTPException], fun fetch_error =>
             logger_error (lit "Failed to fetch message: " ++
                           exn_str fetch_error) ;;
             return_) ] ;;
    (* check for what to do *)
    is_add <- classify emoji valid_add_emojis ;;
    if is_add then
      embed <- _create_bookmark_embed message ;;
      _send_bookmark user message embed emoji
    else
      is_remove <- classify emoji valid_remove_emojis ;;
      if is_remove && negb (user_is user (bot_user bot)) then
        _delete_bookmark message user
      else
        return_).

End Bookmarks.

(** ** Vocabulary of the statements *)

(** How a call's outcome completes the code that awaits it. *)
Definition completion_of {A} (o : Outcome A) : Completion A :=
  match o with
  | Returns a => Normal a
  | Raises e => Raised e
  end.

(** The network calls of the cog. *)
Inductive NetworkCall : Type :=
| Call_fetch_user
| Call_fetch_channel
| Call_fetch_message
| Call_user_send
| Call_add_reaction
| Call_channel_send
| Call_message_delete.

Definition NetworkCall_eqb (a b : NetworkCall) : bool :=
  match a, b with
  | Call_fetch_user, Call_fetch_user
  | Call_fetch_channel, Call_fetch_channel
  | Call_fetch_message, Call_fetch_message
  | Call_user_send, Call_user_send
  | Call_add_reaction, Call_add_reaction
  | Call_channel_send, Call_channel_send
  | Call_message_delete, Call_message_delete => true
  | _, _ => false
  end.

(** The network call a step is, if it is one: cache lookups, logging and the
    cog's own helpers are not. *)
Definition network_call (ev : Event) : option NetworkCall :=
  match ev with
  | Ev_fetch_user _ => Some Call_fetch_user
  | Ev_fetch_channel _ => Some Call_fetch_channel
  | Ev_fetch_message _ _ => Some Call_fetch_message
  | Ev_user_send _ _ => Some Call_user_send
  | Ev_add_reaction _ _ => Some Call_add_reaction
  | Ev_channel_send _ _ => Some Call_channel_send
  | Ev_message_delete _ _ => Some Call_message_delete
  | Ev_is_valid_emoji _ _ _ | Ev_get_user _ | Ev_get_channel _
  | Ev_create_embed _ | Ev_log_error _ => None
  end.

Definition is_call (c : NetworkCall) (ev : Event) : bool :=
  match network_call ev with
  | Some c' => NetworkCall_eqb c c'
  | None => false
  end.

(** How many times a run attempted the call. *)
Definition attempts (c : NetworkCall) (t : list Event) : nat :=
  length (List.filter (is_call c) t).

(** A step that looks something up: a user, a channel or a message, in the
    cache or over the network. *)
Definition is_lookup (ev : Event) : bool :=
  match ev with
  | Ev_get_user _ | Ev_fetch_user _ | Ev_get_channel _ | Ev_fetch_channel _
  | Ev_fetch_message _ _ => true
  | _ => false
  end.

(** A step that sends a direct message. *)
Definition is_dm (ev : Event) : bool :=
  match ev with
  | Ev_user_send _ _ => true
  | _ => false
  end.

(** A step that deletes a message. *)
Definition is_delete (ev : Event) : bool :=
  match ev with
  | Ev_message_delete _ _ => true
  | _ => false
  end.

(** A step that can follow the sending of the direct message. *)
Definition follows_dispatch (ev : Event) : bool :=
  match ev with
  | Ev_add_reaction _ _ | Ev_log_error _ | Ev_channel_send _ _
  | Ev_message_delete _ _ => true
  | _ => false
  end.

(** The message as [_create_bookmark_embed] leaves it: a content longer than
    the limit is cut, any other is kept. *)
Definition settled (CONST : Constants) (m : Message) : Message :=
  if len (content m) >? EMBED_MAX_DESC_LENGTH CONST
  then set_content m
         (slice_to (content m) (EMBED_MAX_DESC_LENGTH CONST - 3) ++ lit "...")
  else m.

(** [name] straddles the end of [a] and the start of [b]: a non-empty
    suffix of [a] followed by a non-empty prefix of [b]. *)
Definition Straddles (name a b : str) : Prop :=
  exists l r : str,
    name = l ++ r /\ l <> [] /\ r <> [] /\
    (exists pre, a = pre ++ l) /\ (exists post, b = r ++ post).

(** A step that writes to the log. *)
Definition is_log (ev : Event) : bool :=
  match ev with
  | Ev_log_error _ => true
  | _ => false
  end.

(** A call that can fail only with an [HTTPException] (or a subclass). *)
Definition fails_with_http_only {A} (o : Outcome A) : Prop :=
  forall e : Exn, o = Raises e -> isinstance e HTTPException = true.

(** A call that does not fail. *)
Definition succeeds {A} (o : Outcome A) : Prop :=
  forall e : Exn, o <> Raises e.

(** A world whose fetches and direct messages fail, when they do, with an
    [HTTPException], and where posting in a channel and deleting a message
    do not fail. *)
Record Benign (bot : World) : Prop := mkBenign {
  benign_fetch_user : forall uid, fails_with_http_only (fetch_user bot uid);
  benign_fetch_channel : forall cid, fails_with_http_only (fetch_channel bot cid);
  benign_fetch_message :
    forall ch mid, fails_with_http_only (fetch_message bot ch mid);
  benign_user_send : forall u e, fails_with_http_only (user_send bot u e);
  benign_add_reaction :
    forall m emoji, fails_with_http_only (add_reaction bot m emoji);
  benign_channel_send : forall ch text, succeeds (channel_send bot ch text);
  benign_message_delete : forall m delay, succeeds (message_delete bot m delay)
}.

(** ** Sample inputs *)

Module Sample.

(** Sample constants: a bookmark emoji, a wastebasket emoji followed by the
    variation selector U+FE0F, and Discord's limit on an embed description. *)
Definition CONST : Constants :=
  mkConstants [0x1F516%N] [0x1F5D1%N; 0xFE0F%N] 4096.

Definition tux_user : User := mkUser 1 (lit "Tux") (lit "<@1>").
Definition alice : User := mkUser 2 (lit "alice") (lit "<@2>").
Definition dm_channel : Channel := mkChannel 10.

(** A bookmark the bot delivered earlier, in alice's DM channel. *)
Definition bookmark : Message :=
  mkMessage (lit "> hello") tux_user dm_channel
            (lit "https://discord.com/channels/@me/10/100") [].

(** A message alice wrote. *)
Definition note : Message :=
  mkMessage (lit "hello") alice dm_channel
            (lit "https://discord.com/channels/@me/10/99") [].

(** A message longer than the limit. *)
Definition essay : Message :=
  mkMessage (repeat 97%N 5000) alice dm_channel
            (lit "https://discord.com/channels/@me/10/98") [].

Definition delivered : Message :=
  mkMessage [] tux_user dm_channel
            (lit "https://discord.com/channels/@me/10/101") [].

Definition notice : Message :=
  mkMessage (lit "<@2>, I couldn't send you a DM.") tux_user dm_channel
            (lit "https://discord.com/channels/@me/10/102") [].

Definition forbidden : Exn := mkExn Forbidden (lit "403 Forbidden").
Definition not_found : Exn := mkExn NotFound (lit "404 Not Found").

(** A world where every network call succeeds, but for the cache of users,
    the fetch of the message and the sending of the direct message, which
    are as given. *)
Definition world (cached_user : option User) (fetched : Outcome Message)
    (sent : Outcome Message) : World :=
  mkWorld tux_user
    (fun _ => cached_user)
    (fun _ => Some dm_channel)
    (fun _ => Returns alice)
    (fun _ => Returns dm_channel)
    (fun _ _ => fetched)
    (fun _ _ => sent)
    (fun _ _ => Returns tt)
    (fun _ _ => Returns notice)
    (fun _ _ => Returns tt).

(** A reaction by the user of that id on message 100 of channel 10. *)
Definition reaction (user_id : N) (name : str) : RawReactionActionEvent :=
  mkPayload (mkPartialEmoji name None) user_id 10 100.

(** The heap before the handler runs: no message object yet. *)
Definition no_message : gmap ref Message := empty.

(** A heap with one message object, at reference 7. *)
Definition one_message (m : Message) : gmap ref Message := {[ 7%N := m ]}.

Definition add_emoji : str := [0x1F516%N].
Definition remove_emoji : str := [0x1F5D1%N; 0xFE0F%N].
Definition thumbs_up : str := [0x1F44D%N].

End Sample.

(** * Properties *)

(** ** Strings *)

Lemma startswith_spec (s p : str) :
  startswith s p = true <-> exists post, s = p ++ post.
Proof.
  revert s; induction p as [|c p IH]; intros s; simpl.
  - split; [intros _; exists s; reflexivity | reflexivity].
  - destruct s as [|d s]; simpl.
    + split; [discriminate | intros [post H]; discriminate].
    + rewrite andb_true_iff, N.eqb_eq, IH. split.
      * intros [-> [post ->]]. eauto.
      * intros [post H]. injection H as -> ->. eauto.
Qed.

Lemma str_contains_spec (hay needle : str) :
  str_contains hay needle = true <-> Substring needle hay.
Proof.
  unfold Substring. induction hay as [|c hay IH]; simpl.
  - rewrite orb_false_r, startswith_spec. split.
    + intros [post H]. exists [], post. exact H.
    + intros [pre [post H]]. destruct pre; simpl in H.
      * eauto.
      * discriminate.
  - rewrite orb_true_iff, startswith_spec, IH. split.
    + intros [[post H] | [pre [post H]]].
      * exists [], post. exact H.
      * exists (c :: pre), post. simpl. now rewrite H.
    + intros [pre [post H]]. destruct pre as [|d pre]; simpl in H.
      * left. eauto.
      * right. injection H as -> H. eauto.
Qed.

Lemma Substring_length (needle hay : str) :
  Substring needle hay -> (length needle <= length hay)%nat.
Proof.
  intros [pre [post ->]]. rewrite !length_app. lia.
Qed.

Lemma is_valid_emoji_true (emoji : PartialEmoji) (valid_list : str) :
  _is_valid_emoji emoji valid_list = true <->
  Substring (emoji_name emoji) valid_list.
Proof.
  unfold _is_valid_emoji. rewrite <- str_contains_spec.
  destruct (str_contains valid_list (emoji_name emoji)); intuition congruence.
Qed.

(** An emoji accepted for the add list or for the remove list is accepted
    for their concatenation. *)
Lemma is_valid_add_valid (CONST : Constants) (emoji : PartialEmoji) :
  _is_valid_emoji emoji (valid_add_emojis CONST) = true ->
  _is_valid_emoji emoji (valid_emojis CONST) = true.
Proof.
  rewrite !is_valid_emoji_true. unfold valid_add_emojis, valid_emojis.
  intros [pre [post ->]]. exists pre, (post ++ REMOVE_BOOKMARK CONST).
  now rewrite <- !app_assoc.
Qed.

Lemma is_valid_remove_valid (CONST : Constants) (emoji : PartialEmoji) :
  _is_valid_emoji emoji (valid_remove_emojis CONST) = true ->
  _is_valid_emoji emoji (valid_emojis CONST) = true.
Proof.
  rewrite !is_valid_emoji_true. unfold valid_remove_emojis, valid_emojis.
  intros [pre [post ->]]. exists (ADD_BOOKMARK CONST ++ pre), post.
  now rewrite <- !app_assoc.
Qed.

(** An emoji the concatenation rejects is rejected by both lists. *)
Lemma is_valid_emojis_false (CONST : Constants) (emoji : PartialEmoji) :
  _is_valid_emoji emoji (valid_emojis CONST) = false ->
  _is_valid_emoji emoji (valid_add_emojis CONST) = false /\
  _is_valid_emoji emoji (valid_remove_emojis CONST) = false.
Proof.
  intros H. split.
  - destruct (_is_valid_emoji emoji (valid_add_emojis CONST)) eqn:E; [|reflexivity].
    apply is_valid_add_valid in E. congruence.
  - destruct (_is_valid_emoji emoji (valid_remove_emojis CONST)) eqn:E; [|reflexivity].
    apply is_valid_remove_valid in E. congruence.
Qed.

(** C5. [_is_valid_emoji] is a substring test on the configured string: it
    accepts an emoji for a list exactly when the emoji's name occurs in the
    list as a substring, proper or not.  So it accepts every emoji whose name
    is a strict substring of the configured string, and every non-empty
    configured string has such an emoji. *)
Theorem is_valid_emoji_is_substring_lookup :
  (forall (emoji : PartialEmoji) (valid_list : str),
      _is_valid_emoji emoji valid_list = true <->
      Substring (emoji_name emoji) valid_list) /\
  (forall (emoji : PartialEmoji) (valid_list : str),
      Substring (emoji_name emoji) valid_list ->
      emoji_name emoji <> valid_list ->
      _is_valid_emoji emoji valid_list = true) /\
  (forall valid_list : str,
      valid_list <> [] ->
      exists emoji : PartialEmoji,
        emoji_name emoji <> valid_list /\
        Substring (emoji_name emoji) valid_list /\
        _is_valid_emoji emoji valid_list = true).
Proof.
  split; [exact is_valid_emoji_true | split].
  - intros emoji valid_list Hsub _. now apply is_valid_emoji_true.
  - intros valid_list Hne.
    assert (Hsub : Substring [] valid_list) by (exists [], valid_list; reflexivity).
    exists (mkPartialEmoji [] None). simpl. split; [congruence | split].
    + exact Hsub.
    + now apply is_valid_emoji_true.
Qed.

(** With the sample constants, the wastebasket without its variation
    selector is accepted as a remove emoji, and so is the bare selector. *)
Example wastebasket_without_selector :
  _is_valid_emoji (mkPartialEmoji [0x1F5D1%N] None)
                  (valid_remove_emojis Sample.CONST) = true /\
  _is_valid_emoji (mkPartialEmoji [0xFE0F%N] None)
                  (valid_remove_emojis Sample.CONST) = true.
Proof. split; reflexivity. Qed.

Lemma len_app (s t : str) : len (s ++ t) = len s + len t.
Proof. unfold len. rewrite length_app. lia. Qed.

(** With a stop within the string, the slice is the prefix of that length. *)
Lemma slice_to_take (s : str) (stop : Z) :
  0 <= stop <= len s ->
  slice_to s stop = take (Z.to_nat stop) s /\ len (slice_to s stop) = stop.
Proof.
  unfold slice_to, len. intros [H0 H1].
  destruct (stop <? 0) eqn:E; [apply Z.ltb_lt in E; lia|].
  rewrite Z.min_l by lia. split; [reflexivity|].
  rewrite length_take. lia.
Qed.

(** ** Message objects in the heap *)

Lemma lookup_alloc (h : gmap ref Message) (m : Message) :
  <[fresh (dom h) := m]> h !! fresh (dom h) = Some m.
Proof. apply lookup_insert_eq. Qed.

(** A new object does not disturb the ones there. *)
Lemma lookup_alloc_old (h : gmap ref Message) (r : ref) (m x : Message) :
  h !! r = Some m -> <[fresh (dom h) := x]> h !! r = Some m.
Proof.
  intros H. rewrite lookup_insert_ne; [exact H|].
  intros E. subst r. pose proof (is_fresh (dom h)) as F.
  apply F. apply elem_of_dom. eauto.
Qed.

Lemma set_content_id (m : Message) : set_content m (content m) = m.
Proof. now destruct m. Qed.

(** ** Exception clauses *)

Lemma catches_one (c : ExnClass) (e : Exn) : catches [c] e = isinstance e c.
Proof. unfold catches. simpl. apply orb_false_r. Qed.

Lemma catches_two (c d : ExnClass) (e : Exn) :
  catches [c; d] e = isinstance e c || isinstance e d.
Proof. unfold catches. simpl. now rewrite orb_false_r. Qed.

(** [NotFound] and [Forbidden] are [HTTPException]s. *)
Lemma isinstance_HTTPException (e : Exn) :
  isinstance e NotFound || isinstance e Forbidden || isinstance e HTTPException
  = isinstance e HTTPException.
Proof. unfold isinstance. now destruct (exn_class e). Qed.

(** ** Running the cog symbolically *)

Ltac heap_lookup :=
  first [ eassumption
        | apply lookup_insert_eq
        | apply lookup_alloc_old; heap_lookup ].

(** A read of the heap whose object is known is replaced by the object. *)
Ltac heap_step :=
  match goal with
  | |- context [ @lookup _ _ (gmap ref Message) _ ?r ?h ] =>
      let m := fresh "m" in
      let H := fresh "H" in
      evar (m : Message);
      assert (H : h !! r = Some m) by (subst m; heap_lookup);
      subst m; rewrite H; clear H
  end.

Ltac exec :=
  cbn -[lit str_of_N fresh dom insert lookup slice_to len Z.gtb Z.sub catches
        bookmark_embed dm_failed_text _is_valid_emoji valid_emojis
        valid_add_emojis valid_remove_emojis user_is].

Ltac unfold_cog :=
  unfold run, on_raw_reaction_add, _send_bookmark, _delete_bookmark,
    _create_bookmark_embed, classify, logger_error, store_content, call_new,
    call, def_, try_except, bind, alloc, load, step, ret, return_, raise.

(** A scrutinee whose value a hypothesis gives is replaced by it. *)
Ltac use_hyp :=
  match goal with
  | H : ?x = _ |- context [match ?x with _ => _ end] => rewrite H
  | H : ?x = _ |- context [match negb ?x with _ => _ end] => rewrite H
  | H : ?x = _ |- context [match ?x && _ with _ => _ end] => rewrite H
  | H : ?x = _ |- context [match _ && negb ?x with _ => _ end] => rewrite H
  end.

Ltac destruct_atom x :=
  lazymatch x with
  | negb ?y => destruct_atom y
  | andb ?y _ => destruct_atom y
  | _ => destruct x eqn:?
  end.

(** Otherwise the run splits on what the scrutinee can be. *)
Ltac split_case :=
  match goal with
  | |- context [match ?x with _ => _ end] =>
      lazymatch type of x with
      | bool => idtac
      | Outcome _ => idtac
      | option User => idtac
      | option Channel => idtac
      end;
      destruct_atom x
  end.

(** The run as far as the hypotheses decide it. *)
Ltac run_cog :=
  unfold_cog; exec;
  repeat (first [use_hyp | heap_step]; exec).

(** The run along every path. *)
Ltac run_cases :=
  unfold_cog; exec;
  repeat (first [use_hyp | heap_step | split_case]; exec).

Section Properties.

Variable CONST : Constants.
Variable bot : World.

Local Abbreviation handler := (on_raw_reaction_add CONST bot).

(** C6. When the fetch of the message raises [NotFound], [Forbidden] or
    [HTTPException], the handler logs one error and returns normally: the
    run is the classification, the two cache lookups, the failed fetch and
    the log line, so nothing is sent and nothing is deleted, and the heap is
    as it was. *)
Theorem fetch_message_error_is_logged
    (payload : RawReactionActionEvent) (h : gmap ref Message)
    (user : User) (ch : Channel) (e : Exn) :
  _is_valid_emoji (payload_emoji payload) (valid_emojis CONST) = true ->
  get_user bot (payload_user_id payload) = Some user ->
  get_channel bot (payload_channel_id payload) = Some ch ->
  fetch_message bot ch (payload_message_id payload) = Raises e ->
  isinstance e NotFound || isinstance e Forbidden || isinstance e HTTPException
    = true ->
  let text :=
    if isinstance e NotFound
    then lit "Message not found for ID: " ++ str_of_N (payload_message_id payload)
    else lit "Failed to fetch message: " ++ exn_str e in
  let steps :=
    [ Ev_is_valid_emoji (emoji_name (payload_emoji payload))
                        (valid_emojis CONST) true;
      Ev_get_user (payload_user_id payload);
      Ev_get_channel (payload_channel_id payload);
      Ev_fetch_message ch (payload_message_id payload);
      Ev_log_error text ] in
  run (handler payload) h = (Normal tt, mkState h steps) /\
  List.filter is_dm steps = [] /\
  List.filter is_delete steps = [].
Proof.
  intros Hvalid Huser Hch Hfetch Hcaught. cbv zeta.
  split; [|split; reflexivity].
  run_cog. rewrite catches_one, catches_two.
  destruct (isinstance e NotFound) eqn:Hnf; exec; [reflexivity|].
  simpl in Hcaught. rewrite Hcaught. reflexivity.
Qed.

(** C9. [_create_bookmark_embed] on a message object: a content strictly
    longer than [EMBED_MAX_DESC_LENGTH] is replaced in the heap, where the
    object lies, by its first [EMBED_MAX_DESC_LENGTH - 3] characters followed
    by three dots, a string of exactly [EMBED_MAX_DESC_LENGTH] characters; a
    content within the limit is left as it is, heap included; and the
    description of the embed returned is the resulting content after the
    two characters of the quote mark.  The limit is a parameter here: the
    count is exact for a limit of three or more. *)
Theorem create_bookmark_embed_truncates
    (h : gmap ref Message) (message : ref) (m : Message) :
  3 <= EMBED_MAX_DESC_LENGTH CONST ->
  h !! message = Some m ->
  let limit := EMBED_MAX_DESC_LENGTH CONST in
  let long := len (content m) >? limit in
  let content' :=
    if long
    then take (Z.to_nat (limit - 3)) (content m) ++ lit "..."
    else content m in
  let m' := set_content m content' in
  let embed := bookmark_embed m' in
  run (_create_bookmark_embed CONST message) h =
    (Normal embed,
     mkState (if long then <[message := m']> h else h) [Ev_create_embed embed]) /\
  (len (content m) > limit -> len content' = limit) /\
  (len (content m) <= limit -> content' = content m) /\
  embed_description embed = lit "> " ++ content'.
Proof.
  intros Hlimit Hm. cbv zeta.
  destruct (len (content m) >? EMBED_MAX_DESC_LENGTH CONST) eqn:Hlong.
  - pose proof Hlong as Hgt. apply Z.gtb_lt in Hgt.
    destruct (slice_to_take (content m) (EMBED_MAX_DESC_LENGTH CONST - 3))
      as [Htake Hlen]; [lia|].
    split; [|split; [|split]].
    + run_cog. rewrite Htake. reflexivity.
    + intros _. rewrite len_app, <- Htake, Hlen. change (len (lit "...")) with 3. lia.
    + lia.
    + unfold bookmark_embed. simpl. now destruct (attachments m).
  - split; [|split; [|split]].
    + run_cog. now rewrite set_content_id.
    + assert (len (content m) <= EMBED_MAX_DESC_LENGTH CONST); [|lia].
      destruct (Z.gtb_spec (len (content m)) (EMBED_MAX_DESC_LENGTH CONST)); [discriminate | lia].
    + reflexivity.
    + unfold bookmark_embed. simpl. now destruct (attachments m).
Qed.

(** C3, as amended. A remove emoji that is not also an add emoji, from a
    user who is not the bot itself, with user and channel cached and the
    message fetched: the handler deletes the message when the bot is its
    author, and otherwise takes no step on it; either way the message
    object keeps the content it was fetched with. *)
Theorem remove_bookmark_deletes_bot_message
    (payload : RawReactionActionEvent) (h : gmap ref Message)
    (user : User) (ch : Channel) (m : Message) :
  _is_valid_emoji (payload_emoji payload) (valid_add_emojis CONST) = false ->
  _is_valid_emoji (payload_emoji payload) (valid_remove_emojis CONST) = true ->
  get_user bot (payload_user_id payload) = Some user ->
  user_is user (bot_user bot) = false ->
  get_channel bot (payload_channel_id payload) = Some ch ->
  fetch_message bot ch (payload_message_id payload) = Returns m ->
  let name := emoji_name (payload_emoji payload) in
  let message := fresh (dom h) in
  let steps :=
    [ Ev_is_valid_emoji name (valid_emojis CONST) true;
      Ev_get_user (payload_user_id payload);
      Ev_get_channel (payload_channel_id payload);
      Ev_fetch_message ch (payload_message_id payload);
      Ev_is_valid_emoji name (valid_add_emojis CONST) false;
      Ev_is_valid_emoji name (valid_remove_emojis CONST) true ] in
  run (handler payload) h =
    if user_is (author m) (bot_user bot)
    then (completion_of (message_delete bot m None),
          mkState (<[message := m]> h)
                  (steps ++ [Ev_message_delete message None]))
    else (Normal tt, mkState (<[message := m]> h) steps).
Proof.
  intros Hadd Hremove Huser Hnotbot Hch Hfetch. cbv zeta.
  pose proof (is_valid_remove_valid _ _ Hremove) as Hvalid.
  run_cog.
  destruct (user_is (author m) (bot_user bot)); exec; [|reflexivity].
  destruct (message_delete bot m None); reflexivity.
Qed.

(** C2, as amended. An add emoji, with user and channel in the cache and the
    message fetched: the handler builds an embed and sends that embed to the
    reacting user, and only steps that follow a dispatch come after.  The
    description of the embed is the quote mark followed by the content of
    the message when the content is within [EMBED_MAX_DESC_LENGTH], and
    by its first [EMBED_MAX_DESC_LENGTH - 3] characters and three dots when
    it is longer (for a limit of three or more). *)
Theorem add_bookmark_sends_quoted_content
    (payload : RawReactionActionEvent) (h : gmap ref Message)
    (user : User) (ch : Channel) (m : Message) :
  _is_valid_emoji (payload_emoji payload) (valid_add_emojis CONST) = true ->
  get_user bot (payload_user_id payload) = Some user ->
  get_channel bot (payload_channel_id payload) = Some ch ->
  fetch_message bot ch (payload_message_id payload) = Returns m ->
  let name := emoji_name (payload_emoji payload) in
  let limit := EMBED_MAX_DESC_LENGTH CONST in
  exists (quoted : str) (rest : list Event),
    let embed := bookmark_embed (set_content m quoted) in
    trace (run (handler payload) h).2 =
      [ Ev_is_valid_emoji name (valid_emojis CONST) true;
        Ev_get_user (payload_user_id payload);
        Ev_get_channel (payload_channel_id payload);
        Ev_fetch_message ch (payload_message_id payload);
        Ev_is_valid_emoji name (valid_add_emojis CONST) true;
        Ev_create_embed embed;
        Ev_user_send user embed ] ++ rest /\
    forallb follows_dispatch rest = true /\
    embed_description embed = lit "> " ++ quoted /\
    (len (content m) <= limit -> quoted = content m) /\
    (3 <= limit -> len (content m) > limit ->
     quoted = take (Z.to_nat (limit - 3)) (content m) ++ lit "...").
Proof.
  intros Hadd Huser Hch Hfetch. cbv zeta.
  pose proof (is_valid_add_valid _ _ Hadd) as Hvalid.
  assert (Hdesc : forall quoted,
             embed_description (bookmark_embed (set_content m quoted)) =
             lit "> " ++ quoted).
  { intros quoted. unfold bookmark_embed. simpl. now destruct (attachments m). }
  destruct (len (content m) >? EMBED_MAX_DESC_LENGTH CONST) eqn:Hlong.
  - pose proof Hlong as Hgt. apply Z.gtb_lt in Hgt.
    exists (slice_to (content m) (EMBED_MAX_DESC_LENGTH CONST - 3) ++ lit "...").
    assert (Hcut : 3 <= EMBED_MAX_DESC_LENGTH CONST ->
                   len (content m) > EMBED_MAX_DESC_LENGTH CONST ->
                   slice_to (content m) (EMBED_MAX_DESC_LENGTH CONST - 3) ++
                   lit "..." =
                   take (Z.to_nat (EMBED_MAX_DESC_LENGTH CONST - 3)) (content m) ++
                   lit "...").
    { intros Hlimit _.
      destruct (slice_to_take (content m) (EMBED_MAX_DESC_LENGTH CONST - 3))
        as [-> _]; [lia | reflexivity]. }
    run_cases;
      (eexists; split; [reflexivity | split; [reflexivity | split; [| split]]];
       [apply Hdesc | intros Hle; exfalso; lia | exact Hcut]).
  - assert (Hle : len (content m) <= EMBED_MAX_DESC_LENGTH CONST)
      by (destruct (Z.gtb_spec (len (content m)) (EMBED_MAX_DESC_LENGTH CONST));
          [discriminate | lia]).
    exists (content m). rewrite set_content_id.
    run_cases;
      (eexists; split; [reflexivity | split; [reflexivity | split; [| split]]];
       [rewrite <- (Hdesc (content m)), set_content_id; reflexivity
       | reflexivity | intros _ Hgt; exfalso; lia]).
Qed.

(** C4, as amended. An emoji that is neither an add nor a remove emoji: no
    direct message is sent and no message is deleted; and when its name
    does not occur in the concatenation of the two configured strings
    either, the handler returns at once, its only step the classification:
    it looks nothing up. *)
Theorem unrelated_emoji_is_ignored
    (payload : RawReactionActionEvent) (h : gmap ref Message) :
  _is_valid_emoji (payload_emoji payload) (valid_add_emojis CONST) = false ->
  _is_valid_emoji (payload_emoji payload) (valid_remove_emojis CONST) = false ->
  let name := emoji_name (payload_emoji payload) in
  let steps := trace (run (handler payload) h).2 in
  List.filter is_dm steps = [] /\
  List.filter is_delete steps = [] /\
  (_is_valid_emoji (payload_emoji payload) (valid_emojis CONST) = false ->
   run (handler payload) h =
     (Normal tt, mkState h [Ev_is_valid_emoji name (valid_emojis CONST) false]) /\
   List.filter is_lookup steps = []).
Proof.
  intros Hadd Hremove. cbv zeta. split; [|split].
  - run_cases; reflexivity.
  - run_cases; reflexivity.
  - intros Hvalid. split; run_cog; reflexivity.
Qed.

(** C7. A run that sends the direct message took these steps first, in this
    order: the classification of the emoji, the lookup of the user, the
    lookup of the channel, the fetch of the message, the classification as
    an add emoji, the building of the embed, and then the sending; what
    comes after are only steps that follow a dispatch. *)
Theorem dispatch_steps_in_order
    (payload : RawReactionActionEvent) (h : gmap ref Message)
    (user : User) (embed : Embed) :
  In (Ev_user_send user embed) (trace (run (handler payload) h).2) ->
  let name := emoji_name (payload_emoji payload) in
  exists (ch : Channel) (rest : list Event),
    trace (run (handler payload) h).2 =
      [ Ev_is_valid_emoji name (valid_emojis CONST) true;
        Ev_get_user (payload_user_id payload);
        Ev_get_channel (payload_channel_id payload);
        Ev_fetch_message ch (payload_message_id payload);
        Ev_is_valid_emoji name (valid_add_emojis CONST) true;
        Ev_create_embed embed;
        Ev_user_send user embed ] ++ rest /\
    forallb follows_dispatch rest = true.
Proof.
  cbv zeta. run_cases; intros Hin;
    repeat (destruct Hin as [Hin | Hin]; try discriminate Hin);
    try contradiction;
    injection Hin as <- <-; eexists _, _; split; reflexivity.
Qed.

(** C8. In the handling of one event every network call (the fetch of the
    user, of the channel, of the message, the sending of the direct message,
    the adding of the reaction, the notice in the channel, the deletion of a
    message) is attempted at most once. *)
Theorem each_call_attempted_at_most_once
    (payload : RawReactionActionEvent) (h : gmap ref Message)
    (c : NetworkCall) :
  (attempts c (trace (run (handler payload) h).2) <= 1)%nat.
Proof.
  destruct c; run_cases; lia.
Qed.


(** The early return of lines 45-52: with the user not in the cache, the
    handler fetches the user and returns, whatever the fetch gave. *)
Lemma uncached_user_returns
    (payload : RawReactionActionEvent) (h : gmap ref Message) (user : User) :
  _is_valid_emoji (payload_emoji payload) (valid_emojis CONST) = true ->
  get_user bot (payload_user_id payload) = None ->
  fetch_user bot (payload_user_id payload) = Returns user ->
  run (handler payload) h =
    (Normal tt,
     mkState h
       [ Ev_is_valid_emoji (emoji_name (payload_emoji payload))
                           (valid_emojis CONST) true;
         Ev_get_user (payload_user_id payload);
         Ev_fetch_user (payload_user_id payload) ]).
Proof.
  intros Hvalid Huser Hfetch. run_cog. reflexivity.
Qed.

(** The same early return for the channel, lines 55-62. *)
Lemma uncached_channel_returns
    (payload : RawReactionActionEvent) (h : gmap ref Message)
    (user : User) (ch : Channel) :
  _is_valid_emoji (payload_emoji payload) (valid_emojis CONST) = true ->
  get_user bot (payload_user_id payload) = Some user ->
  get_channel bot (payload_channel_id payload) = None ->
  fetch_channel bot (payload_channel_id payload) = Returns ch ->
  run (handler payload) h =
    (Normal tt,
     mkState h
       [ Ev_is_valid_emoji (emoji_name (payload_emoji payload))
                           (valid_emojis CONST) true;
         Ev_get_user (payload_user_id payload);
         Ev_get_channel (payload_channel_id payload);
         Ev_fetch_channel (payload_channel_id payload) ]).
Proof.
  intros Hvalid Huser Hch Hfetch. run_cog. reflexivity.
Qed.

End Properties.

(** * Further behaviour of the cog *)

Lemma isinstance_not_HTTPException (e : Exn) :
  isinstance e HTTPException = false ->
  isinstance e NotFound = false /\ isinstance e Forbidden = false.
Proof. unfold isinstance. now destruct (exn_class e). Qed.

Lemma isinstance_NotFound_HTTPException (e : Exn) :
  isinstance e NotFound = true -> isinstance e HTTPException = true.
Proof. unfold isinstance. now destruct (exn_class e). Qed.

(** The reference of a new object is none of those in use. *)
Lemma fresh_not_old (h : gmap ref Message) (r : ref) (m : Message) :
  h !! r = Some m -> fresh (dom h) <> r.
Proof.
  intros H E. subst r. apply (is_fresh (dom h)). apply elem_of_dom. eauto.
Qed.

(** Writing at a reference that was new to [h] leaves the objects of [h]
    alone, in whatever heap they now lie. *)
Lemma lookup_insert_old (h H : gmap ref Message) (r : ref) (m x : Message) :
  h !! r = Some m -> H !! r = Some m ->
  <[fresh (dom h) := x]> H !! r = Some m.
Proof.
  intros Hh HH. rewrite lookup_insert_ne; [exact HH |].
  now apply (fresh_not_old h r m).
Qed.

Ltac frame_lookup h :=
  first [ eassumption
        | apply lookup_alloc_old; frame_lookup h
        | apply (lookup_insert_old h); [eassumption | frame_lookup h] ].

Section Behaviour.

Variable CONST : Constants.
Variable bot : World.

Local Abbreviation handler := (on_raw_reaction_add CONST bot).

(** X1. With the reacting user not in the cache, the handler never goes
    past the fetch of the user.  It returns normally when the fetch
    succeeds; it logs that the user was not found on [NotFound], that the
    fetch failed on any other [HTTPException], and returns; any other
    exception leaves the handler, unlogged. *)
Theorem uncached_user_never_continues
    (payload : RawReactionActionEvent) (h : gmap ref Message) :
  _is_valid_emoji (payload_emoji payload) (valid_emojis CONST) = true ->
  get_user bot (payload_user_id payload) = None ->
  let user_id := payload_user_id payload in
  let steps :=
    [ Ev_is_valid_emoji (emoji_name (payload_emoji payload))
                        (valid_emojis CONST) true;
      Ev_get_user user_id;
      Ev_fetch_user user_id ] in
  run (handler payload) h =
    match fetch_user bot user_id with
    | Returns _ => (Normal tt, mkState h steps)
    | Raises e =>
        if isinstance e NotFound then
          (Normal tt,
           mkState h (steps ++ [Ev_log_error (lit "User not found for ID: " ++
                                              str_of_N user_id)]))
        else if isinstance e HTTPException then
          (Normal tt,
           mkState h (steps ++ [Ev_log_error (lit "Failed to fetch user: " ++
                                              exn_str e)]))
        else (Raised e, mkState h steps)
    end.
Proof.
  intros Hvalid Huser. cbv zeta. run_cog.
  destruct (fetch_user bot (payload_user_id payload)) as [u | e]; exec;
    [reflexivity |].
  rewrite catches_one, catches_two.
  destruct (isinstance e NotFound) eqn:Hnf; exec; [reflexivity |].
  destruct (isinstance e HTTPException) eqn:Hhttp.
  - rewrite orb_true_r. reflexivity.
  - destruct (isinstance_not_HTTPException e Hhttp) as [_ ->]. reflexivity.
Qed.

(** X2. The same for the channel: with the user cached and the channel
    not, the handler never goes past the fetch of the channel. *)
Theorem uncached_channel_never_continues
    (payload : RawReactionActionEvent) (h : gmap ref Message) (user : User) :
  _is_valid_emoji (payload_emoji payload) (valid_emojis CONST) = true ->
  get_user bot (payload_user_id payload) = Some user ->
  get_channel bot (payload_channel_id payload) = None ->
  let channel_id := payload_channel_id payload in
  let steps :=
    [ Ev_is_valid_emoji (emoji_name (payload_emoji payload))
                        (valid_emojis CONST) true;
      Ev_get_user (payload_user_id payload);
      Ev_get_channel channel_id;
      Ev_fetch_channel channel_id ] in
  run (handler payload) h =
    match fetch_channel bot channel_id with
    | Returns _ => (Normal tt, mkState h steps)
    | Raises e =>
        if isinstance e NotFound then
          (Normal tt,
           mkState h (steps ++ [Ev_log_error (lit "Channel not found for ID: " ++
                                              str_of_N channel_id)]))
        else if isinstance e HTTPException then
          (Normal tt,
           mkState h (steps ++ [Ev_log_error (lit "Failed to fetch channel: " ++
                                              exn_str e)]))
        else (Raised e, mkState h steps)
    end.
Proof.
  intros Hvalid Huser Hch. cbv zeta. run_cog.
  destruct (fetch_channel bot (payload_channel_id payload)) as [c | e]; exec;
    [reflexivity |].
  rewrite catches_one, catches_two.
  destruct (isinstance e NotFound) eqn:Hnf; exec; [reflexivity |].
  destruct (isinstance e HTTPException) eqn:Hhttp.
  - rewrite orb_true_r. reflexivity.
  - destruct (isinstance_not_HTTPException e Hhttp) as [_ ->]. reflexivity.
Qed.

(** X3. An exception of the fetch of the message that is not an
    [HTTPException] is not caught: it leaves the handler, with nothing
    logged and the heap as it was. *)
Theorem fetch_message_other_error_propagates
    (payload : RawReactionActionEvent) (h : gmap ref Message)
    (user : User) (ch : Channel) (e : Exn) :
  _is_valid_emoji (payload_emoji payload) (valid_emojis CONST) = true ->
  get_user bot (payload_user_id payload) = Some user ->
  get_channel bot (payload_channel_id payload) = Some ch ->
  fetch_message bot ch (payload_message_id payload) = Raises e ->
  isinstance e HTTPException = false ->
  run (handler payload) h =
    (Raised e,
     mkState h
       [ Ev_is_valid_emoji (emoji_name (payload_emoji payload))
                           (valid_emojis CONST) true;
         Ev_get_user (payload_user_id payload);
         Ev_get_channel (payload_channel_id payload);
         Ev_fetch_message ch (payload_message_id payload) ]).
Proof.
  intros Hvalid Huser Hch Hfetch Hhttp.
  destruct (isinstance_not_HTTPException e Hhttp) as [Hnf Hfb].
  run_cog. rewrite catches_one, catches_two, Hnf, Hfb, Hhttp. reflexivity.
Qed.

(** X4. The whole run of a bookmark that is delivered: an add emoji, user
    and channel cached, the message fetched, the direct message sent and
    the remove reaction added to it.  The handler returns normally; its
    last step adds the [REMOVE_BOOKMARK] reaction to the very message
    that [user.send] returned; nothing is logged, nothing is posted in the
    channel, nothing is deleted. *)
Theorem bookmark_delivered
    (payload : RawReactionActionEvent) (h : gmap ref Message)
    (user : User) (ch : Channel) (m dm : Message) :
  _is_valid_emoji (payload_emoji payload) (valid_add_emojis CONST) = true ->
  get_user bot (payload_user_id payload) = Some user ->
  get_channel bot (payload_channel_id payload) = Some ch ->
  fetch_message bot ch (payload_message_id payload) = Returns m ->
  user_send bot user (bookmark_embed (settled CONST m)) = Returns dm ->
  add_reaction bot dm (REMOVE_BOOKMARK CONST) = Returns tt ->
  let name := emoji_name (payload_emoji payload) in
  let embed := bookmark_embed (settled CONST m) in
  let message := fresh (dom h) in
  let result := run (handler payload) h in
  result.1 = Normal tt /\
  exists dm_message : ref,
    trace result.2 =
      [ Ev_is_valid_emoji name (valid_emojis CONST) true;
        Ev_get_user (payload_user_id payload);
        Ev_get_channel (payload_channel_id payload);
        Ev_fetch_message ch (payload_message_id payload);
        Ev_is_valid_emoji name (valid_add_emojis CONST) true;
        Ev_create_embed embed;
        Ev_user_send user embed;
        Ev_add_reaction dm_message (REMOVE_BOOKMARK CONST) ] /\
    dm_message <> message /\
    heap result.2 !! dm_message = Some dm /\
    heap result.2 !! message = Some (settled CONST m).
Proof.
  intros Hadd Huser Hch Hfetch Hsend Hreact. cbv zeta.
  pose proof (is_valid_add_valid _ _ Hadd) as Hvalid.
  revert Hsend. unfold settled.
  destruct (len (content m) >? EMBED_MAX_DESC_LENGTH CONST) eqn:Hlong;
    intros Hsend; run_cog;
    (split; [reflexivity |]); eexists; (split; [reflexivity |]);
    (split; [| split]);
    first [ reflexivity
          | apply lookup_insert_eq
          | apply lookup_alloc_old; apply lookup_insert_eq
          | eapply fresh_not_old; apply lookup_insert_eq ].
Qed.

(** X5. An exception of the direct message, or of the reaction added to
    it, that is not an [HTTPException] is not caught by [_send_bookmark]:
    it propagates, and the user gets no notice in the channel and the log
    no line. *)
Theorem dm_other_error_propagates
    (user : User) (message : ref) (embed : Embed) (emoji : PartialEmoji)
    (h : gmap ref Message) (e : Exn) :
  isinstance e HTTPException = false ->
  user_send bot user embed = Raises e \/
  (exists dm : Message,
      user_send bot user embed = Returns dm /\
      add_reaction bot dm (REMOVE_BOOKMARK CONST) = Raises e) ->
  let result := run (_send_bookmark CONST bot user message embed emoji) h in
  result.1 = Raised e /\
  List.filter is_log (trace result.2) = [] /\
  attempts Call_channel_send (trace result.2) = 0%nat.
Proof.
  intros Hhttp Hfail. cbv zeta.
  destruct (isinstance_not_HTTPException e Hhttp) as [_ Hfb].
  assert (Hcatch : catches [Forbidden; HTTPException] e = false)
    by (now rewrite catches_two, Hfb, Hhttp).
  destruct Hfail as [Hsend | [dm [Hsend Hreact]]]; run_cog;
    repeat split; reflexivity.
Qed.

(** X6. The handler deletes at once only a bookmark of the bot: when a run
    holds an undelayed deletion, its target is the message the handler
    fetched, the bot is the author of that message, the emoji is a remove
    emoji and no add emoji, and the reacting user is not the bot. *)
Theorem only_bot_messages_are_deleted
    (payload : RawReactionActionEvent) (h : gmap ref Message) (r : ref) :
  In (Ev_message_delete r None) (trace (run (handler payload) h).2) ->
  exists (user : User) (ch : Channel) (m : Message),
    get_user bot (payload_user_id payload) = Some user /\
    user_is user (bot_user bot) = false /\
    get_channel bot (payload_channel_id payload) = Some ch /\
    fetch_message bot ch (payload_message_id payload) = Returns m /\
    user_is (author m) (bot_user bot) = true /\
    _is_valid_emoji (payload_emoji payload) (valid_add_emojis CONST) = false /\
    _is_valid_emoji (payload_emoji payload) (valid_remove_emojis CONST) = true /\
    r = fresh (dom h) /\
    heap (run (handler payload) h).2 !! r = Some m.
Proof.
  run_cases; intros Hin;
    repeat (destruct Hin as [Hin | Hin]; try discriminate Hin);
    try contradiction;
    injection Hin as <-;
    do 3 eexists; repeat split; try eassumption; try reflexivity;
    apply lookup_insert_eq.
Qed.

(** X7. A delayed deletion is only ever requested for the notice the
    handler itself posted: the delay is 30, and the target is the message
    that [channel.send] returned for the notice to the reacting user. *)
Theorem only_the_notice_is_deleted_later
    (payload : RawReactionActionEvent) (h : gmap ref Message)
    (r : ref) (delay : Z) :
  In (Ev_message_delete r (Some delay))
     (trace (run (handler payload) h).2) ->
  delay = 30 /\
  exists (user : User) (ch : Channel) (notify : Message),
    get_user bot (payload_user_id payload) = Some user /\
    In (Ev_channel_send ch (dm_failed_text user))
       (trace (run (handler payload) h).2) /\
    channel_send bot ch (dm_failed_text user) = Returns notify /\
    heap (run (handler payload) h).2 !! r = Some notify.
Proof.
  run_cases; intros Hin;
    repeat (destruct Hin as [Hin | Hin]; try discriminate Hin);
    try contradiction;
    injection Hin as <- <-;
    (split; [reflexivity |]);
    do 3 eexists; repeat split; try eassumption;
    first [ apply lookup_insert_eq | simpl; tauto ].
Qed.

(** X8. The handler leaves every message object that was in the heap as it
    was: it writes only to the object it fetched itself. *)
Theorem handler_keeps_other_messages
    (payload : RawReactionActionEvent) (h : gmap ref Message)
    (r : ref) (m : Message) :
  h !! r = Some m ->
  heap (run (handler payload) h).2 !! r = Some m.
Proof.
  intros Hr. run_cases; first [reflexivity | frame_lookup h].
Qed.

(** X9. The reaction the bot adds itself is ignored: when the reacting user
    is the bot and the emoji is no add emoji, no message is deleted and no
    direct message is sent, whoever wrote the message. *)
Theorem own_reaction_is_ignored
    (payload : RawReactionActionEvent) (h : gmap ref Message) (user : User) :
  get_user bot (payload_user_id payload) = Some user ->
  user_is user (bot_user bot) = true ->
  _is_valid_emoji (payload_emoji payload) (valid_add_emojis CONST) = false ->
  let steps := trace (run (handler payload) h).2 in
  List.filter is_delete steps = [] /\ List.filter is_dm steps = [].
Proof.
  intros Huser Hbot Hadd. cbv zeta. split; run_cases; reflexivity.
Qed.

(** X10. What the first test of the handler lets through: the concatenated
    string accepts an emoji exactly when the add list accepts it, or the
    remove list does, or its name straddles the two configured strings (a
    non-empty end of the first followed by a non-empty start of the
    second). *)
Theorem valid_emojis_accepts_exactly (emoji : PartialEmoji) :
  _is_valid_emoji emoji (valid_emojis CONST) = true <->
  _is_valid_emoji emoji (valid_add_emojis CONST) = true \/
  _is_valid_emoji emoji (valid_remove_emojis CONST) = true \/
  Straddles (emoji_name emoji) (ADD_BOOKMARK CONST) (REMOVE_BOOKMARK CONST).
Proof.
  split.
  - rewrite !is_valid_emoji_true.
    unfold valid_emojis, valid_add_emojis, valid_remove_emojis, Substring.
    intros [pre [post H]].
    apply app_eq_inv in H as [[k [Ha Hk]] | [k [Hpre Hr]]].
    + symmetry in Hk.
      apply app_eq_inv in Hk as [[k' [Hk Hpost]] | [k' [Hn Hr]]].
      * left. exists pre, k'. now rewrite Ha, Hk.
      * destruct k as [|c k].
        { right. left. exists [], post. simpl in Hn. now rewrite Hr, Hn. }
        destruct k' as [|c' k'].
        { left. exists pre, []. rewrite app_nil_r in Hn.
          now rewrite Ha, Hn, app_nil_r. }
        right. right. exists (c :: k), (c' :: k').
        repeat split; [exact Hn | discriminate | discriminate | eauto | eauto].
    + right. left. exists k, post. exact Hr.
  - intros [Hadd | [Hremove | (l & r & Hn & _ & _ & [pre Ha] & [post Hr])]].
    + now apply is_valid_add_valid.
    + now apply is_valid_remove_valid.
    + apply is_valid_emoji_true. unfold valid_emojis. exists pre, post.
      now rewrite Ha, Hr, Hn, <- !app_assoc.
Qed.

(** X11. The description of the embed is two characters longer than the
    content it quotes: the quote mark is put in front after the content was
    cut to the limit.  So it has up to [EMBED_MAX_DESC_LENGTH + 2]
    characters, more than the limit as soon as the content has more than
    [EMBED_MAX_DESC_LENGTH - 2]. *)
Theorem description_is_two_longer
    (h : gmap ref Message) (message : ref) (m : Message) :
  3 <= EMBED_MAX_DESC_LENGTH CONST ->
  h !! message = Some m ->
  exists (embed : Embed) (s' : State),
    run (_create_bookmark_embed CONST message) h = (Normal embed, s') /\
    len (embed_description embed) =
      Z.min (len (content m)) (EMBED_MAX_DESC_LENGTH CONST) + 2.
Proof.
  intros Hlimit Hm.
  assert (Hdesc : forall m0, len (embed_description (bookmark_embed m0)) =
                             len (content m0) + 2).
  { intros m0. unfold bookmark_embed.
    destruct (attachments m0); unfold len; simpl; lia. }
  destruct (len (content m) >? EMBED_MAX_DESC_LENGTH CONST) eqn:Hlong.
  - pose proof Hlong as Hgt. apply Z.gtb_lt in Hgt.
    destruct (slice_to_take (content m) (EMBED_MAX_DESC_LENGTH CONST - 3))
      as [_ Hlen]; [lia |].
    run_cog. do 2 eexists. split; [reflexivity |].
    rewrite Hdesc. cbn [content set_content]. rewrite len_app, Hlen.
    change (len (lit "...")) with 3. lia.
  - assert (len (content m) <= EMBED_MAX_DESC_LENGTH CONST)
      by (destruct (Z.gtb_spec (len (content m)) (EMBED_MAX_DESC_LENGTH CONST));
          [discriminate | lia]).
    run_cog. do 2 eexists. split; [reflexivity |].
    rewrite Hdesc. lia.
Qed.

(** X12. Building the embed a second time changes nothing more: the second
    call returns the embed of the first and leaves the heap of the first,
    since a content once cut has exactly the length of the limit. *)
Theorem create_bookmark_embed_twice
    (h : gmap ref Message) (message : ref) (m : Message) :
  3 <= EMBED_MAX_DESC_LENGTH CONST ->
  h !! message = Some m ->
  let first := run (_create_bookmark_embed CONST message) h in
  let second := run (_create_bookmark_embed CONST message) (heap first.2) in
  second.1 = first.1 /\ heap second.2 = heap first.2.
Proof.
  intros Hlimit Hm. cbv zeta.
  destruct (len (content m) >? EMBED_MAX_DESC_LENGTH CONST) eqn:Hlong.
  - pose proof Hlong as Hgt. apply Z.gtb_lt in Hgt.
    destruct (slice_to_take (content m) (EMBED_MAX_DESC_LENGTH CONST - 3))
      as [_ Hlen]; [lia |].
    assert (Hcut : (len (slice_to (content m) (EMBED_MAX_DESC_LENGTH CONST - 3)
                         ++ lit "...") >? EMBED_MAX_DESC_LENGTH CONST) = false).
    { rewrite len_app, Hlen. change (len (lit "...")) with 3.
      destruct (Z.gtb_spec (EMBED_MAX_DESC_LENGTH CONST - 3 + 3)
                           (EMBED_MAX_DESC_LENGTH CONST)); [lia | reflexivity]. }
    run_cog. split; reflexivity.
  - run_cog. split; reflexivity.
Qed.

(** X13. In a benign world, where fetches and direct messages fail only
    with an [HTTPException] and where posting in the channel and deleting
    do not fail, no exception leaves the handler: every run returns
    normally. *)
Theorem handler_returns_in_benign_world
    (payload : RawReactionActionEvent) (h : gmap ref Message) :
  Benign bot ->
  (run (handler payload) h).1 = Normal tt.
Proof.
  intros [Hfu Hfc Hfm Hus Har Hcs Hmd].
  run_cases;
    repeat match goal with u : unit |- _ => destruct u end;
    try reflexivity;
    exfalso;
    try match goal with
        | H : channel_send bot _ _ = Raises _ |- _ => exact (Hcs _ _ _ H)
        | H : message_delete bot _ _ = Raises _ |- _ => exact (Hmd _ _ _ H)
        end;
    match goal with
    | Hc : catches [Forbidden; HTTPException] ?e = false |- _ =>
        rewrite catches_two in Hc;
        assert (Hhttp : isinstance e HTTPException = true)
          by (first [ eapply Hfu; eassumption | eapply Hfc; eassumption
                    | eapply Hfm; eassumption | eapply Hus; eassumption
                    | eapply Har; eassumption ]);
        rewrite Hhttp, orb_true_r in Hc; discriminate Hc
    end.
Qed.

End Behaviour.

(** * The properties on sample inputs *)

Section Samples.

Import Sample.

(** Alice and the channel are cached, the message is fetched, and the direct
    message is delivered. *)
Let quiet (fetched : Message) : World :=
  world (Some alice) (Returns fetched) (Returns delivered).

(** C1, at an input where it fails: alice reacts with the add emoji and is
    not in the cache.  The fetch of the user succeeds, and the handler
    returns there: no channel, no message, no direct message. *)
Example uncached_user_stops_the_handler :
  let bot := world None (Returns note) (Returns delivered) in
  let payload := reaction 2 add_emoji in
  get_user bot 2 = None /\
  fetch_user bot 2 = Returns alice /\
  run (on_raw_reaction_add CONST bot payload) no_message =
    (Normal tt,
     mkState no_message
       [ Ev_is_valid_emoji add_emoji (valid_emojis CONST) true;
         Ev_get_user 2;
         Ev_fetch_user 2 ]).
Proof.
  cbv zeta. split; [reflexivity | split; [reflexivity |]].
  exact (uncached_user_returns CONST
           (world None (Returns note) (Returns delivered))
           (reaction 2 add_emoji) no_message alice eq_refl eq_refl eq_refl).
Qed.

(** C2 as stated fails on a long message: alice bookmarks her essay of 5000
    characters, and the description of the embed she is sent, of 4098
    characters, does not contain the content of the message. *)
Lemma long_content_is_not_in_the_embed :
  let payload := reaction 2 add_emoji in
  let cut :=
    bookmark_embed
      (set_content essay (take 4093 (content essay) ++ lit "...")) in
  _is_valid_emoji (payload_emoji payload) (valid_add_emojis CONST) = true /\
  get_user (quiet essay) 2 = Some alice /\
  get_channel (quiet essay) 10 = Some dm_channel /\
  fetch_message (quiet essay) dm_channel 100 = Returns essay /\
  List.filter is_dm
    (trace (run (on_raw_reaction_add CONST (quiet essay) payload)
                no_message).2) = [Ev_user_send alice cut] /\
  ~ Substring (content essay) (embed_description cut).
Proof.
  cbv zeta. repeat split; try (vm_compute; reflexivity).
  intros Hsub. apply Substring_length in Hsub.
  apply Nat.leb_le in Hsub. vm_compute in Hsub. discriminate Hsub.
Qed.

(** C2, as amended, on a sample: alice bookmarks her essay and is sent its
    first 4093 characters and three dots. *)
Lemma add_bookmark_sends_quoted_content_witness :
  let embed :=
    bookmark_embed
      (set_content essay (take 4093 (content essay) ++ lit "...")) in
  exists rest : list Event,
    trace (run (on_raw_reaction_add CONST (quiet essay) (reaction 2 add_emoji))
               no_message).2 =
      [ Ev_is_valid_emoji add_emoji (valid_emojis CONST) true;
        Ev_get_user 2;
        Ev_get_channel 10;
        Ev_fetch_message dm_channel 100;
        Ev_is_valid_emoji add_emoji (valid_add_emojis CONST) true;
        Ev_create_embed embed;
        Ev_user_send alice embed ] ++ rest /\
    forallb follows_dispatch rest = true /\
    embed_description embed =
      lit "> " ++ take 4093 (content essay) ++ lit "...".
Proof.
  cbv zeta.
  destruct (add_bookmark_sends_quoted_content CONST (quiet essay)
              (reaction 2 add_emoji) no_message alice dm_channel essay
              eq_refl eq_refl eq_refl eq_refl)
    as (quoted & rest & Htrace & Hrest & Hdesc & _ & Hcut).
  assert (Hquoted : quoted = take 4093 (content essay) ++ lit "...")
    by (apply Hcut; [vm_compute; discriminate | reflexivity]).
  subst quoted. exists rest. split; [exact Htrace | split; [exact Hrest | exact Hdesc]].
Defined.

(** C3 as stated fails when the bot itself adds the remove emoji, as it
    does under every bookmark it delivers (line 140): the user, the channel
    and the message are obtained, the bot is the author of the message, and
    the message is not deleted. *)
Lemma remove_by_the_bot_deletes_nothing :
  let bot := world (Some tux_user) (Returns bookmark) (Returns delivered) in
  let payload := reaction 1 remove_emoji in
  _is_valid_emoji (payload_emoji payload) (valid_remove_emojis CONST) = true /\
  get_user bot 1 = Some tux_user /\
  get_channel bot 10 = Some dm_channel /\
  fetch_message bot dm_channel 100 = Returns bookmark /\
  user_is (author bookmark) (bot_user bot) = true /\
  List.filter is_delete
    (trace (run (on_raw_reaction_add CONST bot payload) no_message).2) = [].
Proof.
  cbv zeta. repeat split; vm_compute; reflexivity.
Qed.

(** The add branch is tried first: the empty name occurs in both configured
    strings, and a reaction of that name on a bookmark of the bot sends a
    direct message and deletes nothing. *)
Example name_in_both_lists_takes_the_add_branch :
  let payload := reaction 2 [] in
  let steps :=
    trace (run (on_raw_reaction_add CONST (quiet bookmark) payload)
               no_message).2 in
  _is_valid_emoji (payload_emoji payload) (valid_add_emojis CONST) = true /\
  _is_valid_emoji (payload_emoji payload) (valid_remove_emojis CONST) = true /\
  List.filter is_delete steps = [] /\
  List.filter is_dm steps = [Ev_user_send alice (bookmark_embed bookmark)].
Proof.
  cbv zeta. repeat split; vm_compute; reflexivity.
Qed.

(** C3, as amended, on a sample: alice removes a bookmark the bot sent
    her. *)
Lemma remove_bookmark_deletes_bot_message_witness :
  let message := fresh (dom no_message) in
  run (on_raw_reaction_add CONST (quiet bookmark) (reaction 2 remove_emoji))
      no_message =
    (Normal tt,
     mkState (<[message := bookmark]> no_message)
       [ Ev_is_valid_emoji remove_emoji (valid_emojis CONST) true;
         Ev_get_user 2;
         Ev_get_channel 10;
         Ev_fetch_message dm_channel 100;
         Ev_is_valid_emoji remove_emoji (valid_add_emojis CONST) false;
         Ev_is_valid_emoji remove_emoji (valid_remove_emojis CONST) true;
         Ev_message_delete message None ]).
Proof.
  exact (remove_bookmark_deletes_bot_message CONST (quiet bookmark)
           (reaction 2 remove_emoji) no_message alice dm_channel bookmark
           eq_refl eq_refl eq_refl eq_refl eq_refl eq_refl).
Defined.

(** C4 as stated fails on a name that straddles the two configured
    strings: it is neither an add nor a remove emoji, and the handler looks
    up the user, the channel and the message all the same. *)
Lemma straddling_name_is_looked_up :
  let payload := reaction 2 (add_emoji ++ remove_emoji) in
  _is_valid_emoji (payload_emoji payload) (valid_add_emojis CONST) = false /\
  _is_valid_emoji (payload_emoji payload) (valid_remove_emojis CONST) = false /\
  List.filter is_lookup
    (trace (run (on_raw_reaction_add CONST (quiet note) payload) no_message).2) =
    [ Ev_get_user 2; Ev_get_channel 10; Ev_fetch_message dm_channel 100 ].
Proof.
  cbv zeta. repeat split; vm_compute; reflexivity.
Qed.

(** C4, as amended, on a sample: a thumbs-up is classified and dropped. *)
Lemma unrelated_emoji_is_ignored_witness :
  run (on_raw_reaction_add CONST (quiet note) (reaction 2 thumbs_up))
      no_message =
    (Normal tt,
     mkState no_message
       [Ev_is_valid_emoji thumbs_up (valid_emojis CONST) false]).
Proof.
  exact (proj1 (proj2 (proj2
           (unrelated_emoji_is_ignored CONST (quiet note)
              (reaction 2 thumbs_up) no_message eq_refl eq_refl)) eq_refl)).
Defined.

(** C6 on a sample: the message is gone when the handler fetches it. *)
Lemma fetch_message_error_is_logged_witness :
  run (on_raw_reaction_add CONST
         (world (Some alice) (Raises not_found) (Returns delivered))
         (reaction 2 add_emoji))
      no_message =
    (Normal tt,
     mkState no_message
       [ Ev_is_valid_emoji add_emoji (valid_emojis CONST) true;
         Ev_get_user 2;
         Ev_get_channel 10;
         Ev_fetch_message dm_channel 100;
         Ev_log_error (lit "Message not found for ID: 100") ]).
Proof.
  exact (proj1
           (fetch_message_error_is_logged CONST
              (world (Some alice) (Raises not_found) (Returns delivered))
              (reaction 2 add_emoji) no_message alice dm_channel not_found
              eq_refl eq_refl eq_refl eq_refl eq_refl)).
Defined.

(** C7 on a sample: the run in which alice bookmarks her note. *)
Lemma dispatch_steps_in_order_witness :
  exists (ch : Channel) (rest : list Event),
    trace (run (on_raw_reaction_add CONST (quiet note) (reaction 2 add_emoji))
               no_message).2 =
      [ Ev_is_valid_emoji add_emoji (valid_emojis CONST) true;
        Ev_get_user 2;
        Ev_get_channel 10;
        Ev_fetch_message ch 100;
        Ev_is_valid_emoji add_emoji (valid_add_emojis CONST) true;
        Ev_create_embed (bookmark_embed note);
        Ev_user_send alice (bookmark_embed note) ] ++ rest /\
    forallb follows_dispatch rest = true.
Proof.
  apply (dispatch_steps_in_order CONST (quiet note) (reaction 2 add_emoji)
           no_message alice (bookmark_embed note)).
  vm_compute. do 6 right. left. reflexivity.
Defined.

(** C9 on a sample: an essay of 5000 characters is cut to 4096. *)
Lemma create_bookmark_embed_truncates_witness :
  let content' := take 4093 (content essay) ++ lit "..." in
  let m' := set_content essay content' in
  run (_create_bookmark_embed CONST 7%N) (one_message essay) =
    (Normal (bookmark_embed m'),
     mkState (<[7%N := m']> (one_message essay))
             [Ev_create_embed (bookmark_embed m')]) /\
  len content' = 4096.
Proof.
  cbv zeta.
  destruct (create_bookmark_embed_truncates CONST (one_message essay) 7%N essay)
    as (Hrun & Hlen & _ & _); [vm_compute; discriminate | reflexivity |].
  split; [exact Hrun | apply Hlen; reflexivity].
Defined.


End Samples.

(** * The further behaviour on sample inputs *)

Section MoreSamples.

Import Sample.

Let quiet (fetched : Message) : World :=
  world (Some alice) (Returns fetched) (Returns delivered).

Let invalid_data : Exn := mkExn InvalidData (lit "unknown channel type").

(** Nobody is cached and the user cannot be found. *)
Let lost_user : World :=
  mkWorld tux_user
    (fun _ => None) (fun _ => None)
    (fun _ => Raises not_found) (fun _ => Raises forbidden)
    (fun _ _ => Returns note) (fun _ _ => Returns delivered)
    (fun _ _ => Returns tt) (fun _ _ => Returns notice)
    (fun _ _ => Returns tt).

(** Alice is cached, the channel is not and may not be fetched. *)
Let closed_channel : World :=
  mkWorld tux_user
    (fun _ => Some alice) (fun _ => None)
    (fun _ => Returns alice) (fun _ => Raises forbidden)
    (fun _ _ => Returns note) (fun _ _ => Returns delivered)
    (fun _ _ => Returns tt) (fun _ _ => Returns notice)
    (fun _ _ => Returns tt).

(** X1 on a sample: the user is unknown to Discord. *)
Lemma uncached_user_never_continues_witness :
  run (on_raw_reaction_add CONST lost_user (reaction 2 add_emoji)) no_message =
    (Normal tt,
     mkState no_message
       [ Ev_is_valid_emoji add_emoji (valid_emojis CONST) true;
         Ev_get_user 2;
         Ev_fetch_user 2;
         Ev_log_error (lit "User not found for ID: 2") ]).
Proof.
  exact (uncached_user_never_continues CONST lost_user (reaction 2 add_emoji)
           no_message eq_refl eq_refl).
Defined.

(** X2 on a sample: the bot may not see the channel. *)
Lemma uncached_channel_never_continues_witness :
  run (on_raw_reaction_add CONST closed_channel (reaction 2 add_emoji))
      no_message =
    (Normal tt,
     mkState no_message
       [ Ev_is_valid_emoji add_emoji (valid_emojis CONST) true;
         Ev_get_user 2;
         Ev_get_channel 10;
         Ev_fetch_channel 10;
         Ev_log_error (lit "Failed to fetch channel: 403 Forbidden") ]).
Proof.
  exact (uncached_channel_never_continues CONST closed_channel
           (reaction 2 add_emoji) no_message alice eq_refl eq_refl eq_refl).
Defined.

(** X3 on a sample: the fetch of the message raises [InvalidData]. *)
Lemma fetch_message_other_error_propagates_witness :
  run (on_raw_reaction_add CONST
         (world (Some alice) (Raises invalid_data) (Returns delivered))
         (reaction 2 add_emoji))
      no_message =
    (Raised invalid_data,
     mkState no_message
       [ Ev_is_valid_emoji add_emoji (valid_emojis CONST) true;
         Ev_get_user 2;
         Ev_get_channel 10;
         Ev_fetch_message dm_channel 100 ]).
Proof.
  exact (fetch_message_other_error_propagates CONST
           (world (Some alice) (Raises invalid_data) (Returns delivered))
           (reaction 2 add_emoji) no_message alice dm_channel invalid_data
           eq_refl eq_refl eq_refl eq_refl eq_refl).
Defined.

(** X4 on a sample: alice bookmarks her note and gets it. *)
Lemma bookmark_delivered_witness :
  let result :=
    run (on_raw_reaction_add CONST (quiet note) (reaction 2 add_emoji))
        no_message in
  result.1 = Normal tt /\
  exists dm_message : ref,
    trace result.2 =
      [ Ev_is_valid_emoji add_emoji (valid_emojis CONST) true;
        Ev_get_user 2;
        Ev_get_channel 10;
        Ev_fetch_message dm_channel 100;
        Ev_is_valid_emoji add_emoji (valid_add_emojis CONST) true;
        Ev_create_embed (bookmark_embed note);
        Ev_user_send alice (bookmark_embed note);
        Ev_add_reaction dm_message remove_emoji ] /\
    dm_message <> fresh (dom no_message) /\
    heap result.2 !! dm_message = Some delivered /\
    heap result.2 !! fresh (dom no_message) = Some note.
Proof.
  exact (bookmark_delivered CONST (quiet note) (reaction 2 add_emoji)
           no_message alice dm_channel note delivered
           eq_refl eq_refl eq_refl eq_refl eq_refl eq_refl).
Defined.

(** X5 on a sample: the direct message raises [InvalidData]. *)
Lemma dm_other_error_propagates_witness :
  let result :=
    run (_send_bookmark CONST
           (world (Some alice) (Returns note) (Raises invalid_data))
           alice 7%N (bookmark_embed note) (mkPartialEmoji add_emoji None))
        (one_message note) in
  result.1 = Raised invalid_data /\
  List.filter is_log (trace result.2) = [] /\
  attempts Call_channel_send (trace result.2) = 0%nat.
Proof.
  exact (dm_other_error_propagates CONST
           (world (Some alice) (Returns note) (Raises invalid_data))
           alice 7%N (bookmark_embed note) (mkPartialEmoji add_emoji None)
           (one_message note) invalid_data eq_refl (or_introl eq_refl)).
Defined.

(** X6 on a sample: alice removes a bookmark of the bot. *)
Lemma only_bot_messages_are_deleted_witness :
  exists (user : User) (ch : Channel) (m : Message),
    get_user (quiet bookmark) 2 = Some user /\
    user_is user tux_user = false /\
    get_channel (quiet bookmark) 10 = Some ch /\
    fetch_message (quiet bookmark) ch 100 = Returns m /\
    user_is (author m) tux_user = true /\
    _is_valid_emoji (mkPartialEmoji remove_emoji None)
                    (valid_add_emojis CONST) = false /\
    _is_valid_emoji (mkPartialEmoji remove_emoji None)
                    (valid_remove_emojis CONST) = true /\
    fresh (dom no_message) = fresh (dom no_message) /\
    heap (run (on_raw_reaction_add CONST (quiet bookmark)
                 (reaction 2 remove_emoji)) no_message).2
      !! fresh (dom no_message) = Some m.
Proof.
  apply (only_bot_messages_are_deleted CONST (quiet bookmark)
           (reaction 2 remove_emoji) no_message (fresh (dom no_message))).
  vm_compute. do 6 right. left. reflexivity.
Defined.

(** X7 on a sample: alice has closed her direct messages, and the notice
    is the second message object of the run. *)
Lemma only_the_notice_is_deleted_later_witness :
  let bot := world (Some alice) (Returns note) (Raises forbidden) in
  let result :=
    run (on_raw_reaction_add CONST bot (reaction 2 add_emoji)) no_message in
  30 = 30 /\
  exists (user : User) (ch : Channel) (notify : Message),
    get_user bot 2 = Some user /\
    In (Ev_channel_send ch (dm_failed_text user)) (trace result.2) /\
    channel_send bot ch (dm_failed_text user) = Returns notify /\
    heap result.2 !! 1%N = Some notify.
Proof.
  apply (only_the_notice_is_deleted_later CONST
           (world (Some alice) (Returns note) (Raises forbidden))
           (reaction 2 add_emoji) no_message 1%N 30).
  vm_compute. do 9 right. left. reflexivity.
Defined.

(** X8 on a sample: a note already in the heap survives the bookmarking of
    an essay. *)
Lemma handler_keeps_other_messages_witness :
  heap (run (on_raw_reaction_add CONST (quiet essay) (reaction 2 add_emoji))
            (one_message note)).2 !! 7%N = Some note.
Proof.
  exact (handler_keeps_other_messages CONST (quiet essay)
           (reaction 2 add_emoji) (one_message note) 7%N note eq_refl).
Defined.

(** X9 on a sample: the bot's own wastebasket under a bookmark. *)
Lemma own_reaction_is_ignored_witness :
  let bot := world (Some tux_user) (Returns bookmark) (Returns delivered) in
  let steps :=
    trace (run (on_raw_reaction_add CONST bot (reaction 1 remove_emoji))
               no_message).2 in
  List.filter is_delete steps = [] /\ List.filter is_dm steps = [].
Proof.
  exact (own_reaction_is_ignored CONST
           (world (Some tux_user) (Returns bookmark) (Returns delivered))
           (reaction 1 remove_emoji) no_message tux_user
           eq_refl eq_refl eq_refl).
Defined.

(** X11 on a sample: the description of the embed of the essay has 4098
    characters, two more than the limit. *)
Lemma description_is_two_longer_witness :
  exists (embed : Embed) (s' : State),
    run (_create_bookmark_embed CONST 7%N) (one_message essay) =
      (Normal embed, s') /\
    len (embed_description embed) = 4098.
Proof.
  apply (description_is_two_longer CONST (one_message essay) 7%N essay);
    [vm_compute; discriminate | reflexivity].
Defined.

(** X12 on a sample: the essay is cut once. *)
Lemma create_bookmark_embed_twice_witness :
  let first := run (_create_bookmark_embed CONST 7%N) (one_message essay) in
  let second := run (_create_bookmark_embed CONST 7%N) (heap first.2) in
  second.1 = first.1 /\ heap second.2 = heap first.2.
Proof.
  apply (create_bookmark_embed_twice CONST (one_message essay) 7%N essay);
    [vm_compute; discriminate | reflexivity].
Defined.

(** X13 on a sample: a world where every call succeeds is benign. *)
Lemma handler_returns_in_benign_world_witness :
  (run (on_raw_reaction_add CONST (quiet bookmark) (reaction 2 remove_emoji))
       no_message).1 = Normal tt.
Proof.
  apply (handler_returns_in_benign_world CONST (quiet bookmark)
           (reaction 2 remove_emoji) no_message).
  constructor; intros; intros ? H; discriminate H.
Defined.

End MoreSamples.
